(** * ipapk: metadata extraction from .apk and .ipa packages

    A shallow embedding of [parser.go] (package [ipapk]) and the
    properties of its extraction pipeline.

    Go strings are byte sequences and are modelled by [string] (a sequence
    of 8-bit [ascii]); [[]byte] is a list of bytes; [int64] sizes are [Z]
    (no arithmetic is performed on them).  A Go function returning
    [(v, err)] whose caller follows the idiom [if err != nil { return }]
    is modelled with [result]; where the source looks at both components
    (or drops one), the pair itself is modelled, with [option] for a
    nil-able pointer, interface or error.  A nil-pointer dereference is
    the explicit outcome [Panics]. *)

From Stdlib Require Import String Ascii List ZArith Bool Lia.
Import ListNotations.
Open Scope string_scope.

Set Implicit Arguments.

(* ================================================================= *)
(** ** Go standard library: strings and path/filepath *)

Module GoString.

(** [strings.HasPrefix]. *)
Fixpoint HasPrefix (s prefix : string) : bool :=
  match prefix, s with
  | EmptyString, _ => true
  | String _ _, EmptyString => false
  | String p prefix', String c s' => Ascii.eqb c p && HasPrefix s' prefix'
  end.

(** [strings.Contains]: [substr] occurs somewhere within [s]. *)
Fixpoint Contains (s substr : string) : bool :=
  HasPrefix s substr ||
  match s with
  | EmptyString => false
  | String _ s' => Contains s' substr
  end.

(** The loop of [filepath.Ext] on a platform whose only path separator
    is the slash: [i] is one more than the index examined next,
    [for i := len(path)-1; i >= 0 && path[i] != '/'; i--]. *)
Fixpoint ExtLoop (path : string) (i : nat) : string :=
  match i with
  | O => ""
  | S j =>
      match String.get j path with
      | None => ""
      | Some c =>
          if Ascii.eqb c "/" then ""
          else if Ascii.eqb c "." then substring j (String.length path - j) path
          else ExtLoop path j
      end
  end.

(** [filepath.Ext]: the suffix beginning at the final dot in the final
    slash-separated element of [path]; empty when there is no dot. *)
Definition Ext (path : string) : string := ExtLoop path (String.length path).

End GoString.

(* ================================================================= *)
(** ** Go standard library: the fragment of regexp the package uses *)

Module Regexp.

(** Regular expressions over bytes.  The one pattern of the package
    contains only ASCII literals and the class [[^/]]; since the byte
    [/] never occurs inside a multi-byte UTF-8 sequence, matching byte
    by byte and matching rune by rune accept the same strings. *)
Inductive regexp : Type :=
| Void
| Eps
| Lit (c : ascii)
| NotLit (c : ascii)
| Cat (r1 r2 : regexp)
| Alt (r1 r2 : regexp)
| Star (r : regexp).

(** [r+] *)
Definition Plus (r : regexp) : regexp := Cat r (Star r).

(** A literal string. *)
Fixpoint Str (s : string) : regexp :=
  match s with
  | EmptyString => Eps
  | String c s' => Cat (Lit c) (Str s')
  end.

(** The language of a regular expression. *)
Inductive Matches : regexp -> string -> Prop :=
| MEps : Matches Eps ""
| MLit c : Matches (Lit c) (String c "")
| MNotLit c d : d <> c -> Matches (NotLit c) (String d "")
| MCat r1 r2 s1 s2 :
    Matches r1 s1 -> Matches r2 s2 -> Matches (Cat r1 r2) (s1 ++ s2)
| MAltL r1 r2 s : Matches r1 s -> Matches (Alt r1 r2) s
| MAltR r1 r2 s : Matches r2 s -> Matches (Alt r1 r2) s
| MStarNil r : Matches (Star r) ""
| MStarCons r s1 s2 :
    Matches r s1 -> Matches (Star r) s2 -> Matches (Star r) (s1 ++ s2).

Fixpoint nullable (r : regexp) : bool :=
  match r with
  | Void => false
  | Eps => true
  | Lit _ => false
  | NotLit _ => false
  | Cat r1 r2 => nullable r1 && nullable r2
  | Alt r1 r2 => nullable r1 || nullable r2
  | Star _ => true
  end.

(** Brzozowski derivative: what remains to be matched after reading [a]. *)
Fixpoint deriv (a : ascii) (r : regexp) : regexp :=
  match r with
  | Void => Void
  | Eps => Void
  | Lit c => if Ascii.eqb a c then Eps else Void
  | NotLit c => if Ascii.eqb a c then Void else Eps
  | Cat r1 r2 =>
      if nullable r1
      then Alt (Cat (deriv a r1) r2) (deriv a r2)
      else Cat (deriv a r1) r2
  | Alt r1 r2 => Alt (deriv a r1) (deriv a r2)
  | Star r1 => Cat (deriv a r1) (Star r1)
  end.

(** Some prefix of [s] is in the language of [r]. *)
Fixpoint matchPrefix (r : regexp) (s : string) : bool :=
  nullable r ||
  match s with
  | EmptyString => false
  | String a s' => matchPrefix (deriv a r) s'
  end.

(** [Regexp.MatchString] of Go: [s] contains any match of [r]
    (the search is not anchored at either end). *)
Fixpoint MatchString (r : regexp) (s : string) : bool :=
  matchPrefix r s ||
  match s with
  | EmptyString => false
  | String _ s' => MatchString r s'
  end.

End Regexp.


(* ================================================================= *)
(** ** Values of the package and of its collaborators *)

Definition bytes := list Byte.byte.

(** One operand of a [%v] verb. *)
Inductive fmtArg (E : Type) : Type :=
| VString (s : string)
| VError (e : E).
Arguments VString {E} s.
Arguments VError {E} e.

(** Go [error] values.  The package compares an error with one sentinel
    only, [iospng.ErrImageData]; every other error is built by
    [errors.New] (also the shape given to an error raised inside a
    collaborator) or by [fmt.Errorf], kept with its format and operands. *)
#[warnings="-register-all"]
Inductive error : Type :=
| ErrImageData
| errors_New (text : string)
| fmt_Errorf (format : string) (args : list (fmtArg error)).

(** [(v, err)] consumed through [if err != nil { return ... }]. *)
Inductive result (A : Type) : Type :=
| Ok (a : A)
| Err (e : error).
Arguments Ok {A} a.
Arguments Err {A} e.

(** A call either returns or panics. *)
Inductive outcome (A : Type) : Type :=
| Returns (a : A)
| Panics (reason : string).
Arguments Returns {A} a.
Arguments Panics {A} reason.

(** The runtime error of a read or write through a nil pointer. *)
Definition nilDereference : string :=
  "invalid memory address or nil pointer dereference".

(** [image.Image]: a decoded raster. *)
Record Image : Type := { img_width : nat; img_height : nat; img_pix : bytes }.

(** What the package reads of [os.FileInfo]. *)
Record FileInfo : Type := { fi_Name : string; fi_Size : Z }.

(** An opened [*os.File]. *)
Record osFile : Type := { file_Stat : result FileInfo; file_data : bytes }.

(** An [io.ReadCloser]: the bytes it delivers, then end of file
    ([None]) or a read error. *)
Record ReadCloser : Type := { rc_data : bytes; rc_err : option error }.

(** [ioutil.ReadAll]. *)
Definition ioutil_ReadAll (rc : ReadCloser) : result bytes :=
  match rc_err rc with
  | None => Ok (rc_data rc)
  | Some err => Err err
  end.

(** [*zip.File]: an archive entry, its name and what opening it gives. *)
Record zipFile : Type := { zf_Name : string; zf_Open : result ReadCloser }.

(** [androidbinary.ResTableConfig], the one field the package sets. *)
Record ResTableConfig : Type := { Density : Z }.

(** [*apk.Apk]: the two accessors the package calls, each a Go pair. *)
Record Apk : Type := {
  apk_Icon : ResTableConfig -> option Image * option error;
  apk_Label : option ResTableConfig -> string * option error
}.

Record AppInfo : Type := {
  Name : string;
  BundleId : string;
  Version : string;
  Build : string;
  Icon : option Image;
  Size : Z
}.

Record androidManifest : Type := {
  Package : string;
  VersionName : string;
  VersionCode : string
}.

Record iosPlist : Type := {
  CFBundleName : string;
  CFBundleDisplayName : string;
  CFBundleVersion : string;
  CFBundleShortVersion : string;
  CFBundleIdentifier : string
}.

(** The collaborators of the package: file system, archive reader,
    compact-manifest decoder, XML decoder, resource-table accessor,
    property-list decoder, icon de-optimiser and PNG decoder. *)
Record World : Type := {
  os_Open : string -> result osFile;
  zip_NewReader : osFile -> Z -> result (list zipFile);
  androidbinary_NewXMLFile : bytes -> result string;
  xml_Decode : string -> result androidManifest;
  apk_OpenFile : string -> result Apk;
  plist_Decode : bytes -> result iosPlist;
  (** the bytes written to the output buffer, and the error returned *)
  iospng_PngRevertOptimization : ReadCloser -> bytes * option error;
  png_Decode : bytes -> option Image * option error
}.

(* ================================================================= *)
(** ** parser.go *)

Import GoString Regexp.

(** [regexp.MustCompile(`Payload/[^/]+/Info\.plist`)] *)
Definition reInfoPlist : regexp :=
  Cat (Str "Payload/") (Cat (Plus (NotLit "/")) (Str "/Info.plist")).

Definition iosExt : string := ".ipa".
Definition androidExt : string := ".apk".

(** The three cases of the [switch] in the scanning loop. *)
Inductive entryKind : Type := AndroidManifestEntry | InfoPlistEntry | IosIconEntry.

Definition entryKind_eqb (a b : entryKind) : bool :=
  match a, b with
  | AndroidManifestEntry, AndroidManifestEntry => true
  | InfoPlistEntry, InfoPlistEntry => true
  | IosIconEntry, IosIconEntry => true
  | _, _ => false
  end.

(** Which case of the [switch] an entry name takes: the first case whose
    condition holds, none when all three fail. *)
Definition classify (name : string) : option entryKind :=
  if String.eqb name "AndroidManifest.xml" then Some AndroidManifestEntry
  else if MatchString reInfoPlist name then Some InfoPlistEntry
  else if Contains name "AppIcon60x60" then Some IosIconEntry
  else None.

(** [var xmlFile, plistFile, iosIconFile *zip.File] *)
Record scanned : Type := {
  xmlFile : option zipFile;
  plistFile : option zipFile;
  iosIconFile : option zipFile
}.

Definition scan_init : scanned :=
  {| xmlFile := None; plistFile := None; iosIconFile := None |}.

(** One iteration of [for _, f := range reader.File]. *)
Definition scan_step (st : scanned) (f : zipFile) : scanned :=
  match classify (zf_Name f) with
  | Some AndroidManifestEntry =>
      {| xmlFile := Some f; plistFile := plistFile st; iosIconFile := iosIconFile st |}
  | Some InfoPlistEntry =>
      {| xmlFile := xmlFile st; plistFile := Some f; iosIconFile := iosIconFile st |}
  | Some IosIconEntry =>
      {| xmlFile := xmlFile st; plistFile := plistFile st; iosIconFile := Some f |}
  | None => st
  end.

Definition scan (files : list zipFile) : scanned :=
  fold_left scan_step files scan_init.

(** The variable the scanner keeps for a kind of entry. *)
Definition slot (k : entryKind) (st : scanned) : option zipFile :=
  match k with
  | AndroidManifestEntry => xmlFile st
  | InfoPlistEntry => plistFile st
  | IosIconEntry => iosIconFile st
  end.

Section Parser.

Variable W : World.

(** Every return of [parseAndroidManifest] is [(nil, err)] with a non-nil
    [err] or [(manifest, nil)] with a non-nil [manifest], and its one
    caller follows the idiom. *)
Definition parseAndroidManifest (xmlFile : zipFile) : result androidManifest :=
  match zf_Open xmlFile with
  | Err err => Err err
  | Ok rc =>
      match ioutil_ReadAll rc with
      | Err err => Err err
      | Ok buf =>
          match androidbinary_NewXMLFile W buf with
          | Err err => Err err
          | Ok xmlContent =>
              match xml_Decode W xmlContent with
              | Err err => Err err
              | Ok manifest => Ok manifest
              end
          end
      end
  end.

Definition parseApkFile (xmlFile : option zipFile) : option AppInfo * option error :=
  match xmlFile with
  | None => (None, Some (errors_New "AndroidManifest.xml is not found"))
  | Some xmlFile =>
      match parseAndroidManifest xmlFile with
      | Err err => (None, Some err)
      | Ok manifest =>
          (Some {| Name := ""; BundleId := Package manifest;
                   Version := VersionName manifest; Build := VersionCode manifest;
                   Icon := None; Size := 0 |}, None)
      end
  end.

Definition parseApkIconAndLabel (name : string) : option Image * string * option error :=
  match apk_OpenFile W name with
  | Err err => (None, "", Some err)
  | Ok pkg =>
      let (icon, _) := apk_Icon pkg {| Density := 720 |} in
      match icon with
      | None => (None, "", Some (errors_New "Icon is not found"))
      | Some _ =>
          let (label, _) := apk_Label pkg None in
          (icon, label, None)
      end
  end.

Definition parseIpaFile (plistFile : option zipFile) : option AppInfo * option error :=
  match plistFile with
  | None => (None, Some (errors_New "info.plist is not found"))
  | Some plistFile =>
      match zf_Open plistFile with
      | Err err => (None, Some (fmt_Errorf "failed opening plist file: %v" [VError err]))
      | Ok rc =>
          match ioutil_ReadAll rc with
          | Err err => (None, Some (fmt_Errorf "failed reading plist data: %v" [VError err]))
          | Ok buf =>
              match plist_Decode W buf with
              | Err err =>
                  (None, Some (fmt_Errorf "failed decoding plist data: %v" [VError err]))
              | Ok p =>
                  (Some {| Name := if String.eqb (CFBundleDisplayName p) ""
                                   then CFBundleName p
                                   else CFBundleDisplayName p;
                           BundleId := CFBundleIdentifier p;
                           Version := CFBundleShortVersion p;
                           Build := CFBundleVersion p;
                           Icon := None; Size := 0 |}, None)
              end
          end
      end
  end.

Definition parseIpaIcon (iconFile : option zipFile) : option Image * option error :=
  match iconFile with
  | None => (None, Some (errors_New "Icon is not found"))
  | Some iconFile =>
      match zf_Open iconFile with
      | Err err => (None, Some (fmt_Errorf "Failed opening icon file: %v" [VError err]))
      | Ok rc =>
          let (w, err) := iospng_PngRevertOptimization W rc in
          match err with
          | Some ErrImageData =>
              let (image, _) := png_Decode W w in
              (image, None)
          | Some err =>
              (None, Some (fmt_Errorf "failed png revert optimization: %v" [VError err]))
          | None =>
              match png_Decode W w with
              | (_, Some err) =>
                  (None, Some (fmt_Errorf "failed decoding png: %v" [VError err]))
              | (image, None) => (image, None)
              end
          end
      end
  end.

Definition NewAppParser (name : string) : outcome (option AppInfo * option error) :=
  match os_Open W name with
  | Err err =>
      Returns (None, Some (fmt_Errorf "failed opening file: %v: %v" [VString name; VError err]))
  | Ok file =>
      match file_Stat file with
      | Err err =>
          Returns (None, Some (fmt_Errorf "failed getting file stat: %v" [VError err]))
      | Ok stat =>
          match zip_NewReader W file (fi_Size stat) with
          | Err err =>
              Returns (None, Some (fmt_Errorf "failed reading zip file: %v" [VError err]))
          | Ok reader =>
              let found := scan reader in
              let ext := Ext (fi_Name stat) in
              if String.eqb ext androidExt then
                (* the error of parseApkFile is overwritten by the next
                   assignment to err before anything reads it *)
                let (info, _) := parseApkFile (xmlFile found) in
                let '(icon, label, err) := parseApkIconAndLabel name in
                match info with
                | None =>
                    (* info.Name = label, through a nil *AppInfo *)
                    Panics nilDereference
                | Some info =>
                    Returns (Some {| Name := label; BundleId := BundleId info;
                                     Version := Version info; Build := Build info;
                                     Icon := icon; Size := fi_Size stat |}, err)
                end
              else if String.eqb ext iosExt then
                match parseIpaFile (plistFile found) with
                | (_, Some err) => Returns (None, Some err)
                | (info, None) =>
                    match parseIpaIcon (iosIconFile found) with
                    | (_, Some err) =>
                        Returns (None, Some (fmt_Errorf "failed parsing ipa icon file: %v"
                                                        [VError err]))
                    | (icon, None) =>
                        match info with
                        | None =>
                            Panics nilDereference
                        | Some info =>
                            Returns (Some {| Name := Name info; BundleId := BundleId info;
                                             Version := Version info; Build := Build info;
                                             Icon := icon; Size := fi_Size stat |}, None)
                        end
                    end
                end
              else Returns (None, Some (errors_New "unknown platform"))
          end
      end
  end.

End Parser.

(* ================================================================= *)
(** ** Vocabulary of the statements *)

(** The entry takes case [k] of the scanner's [switch]. *)
Definition is_kind (k : entryKind) (f : zipFile) : bool :=
  match classify (zf_Name f) with
  | Some k' => entryKind_eqb k k'
  | None => false
  end.

(** [Payload/], one non-empty path segment without a slash, [/Info.plist]. *)
Definition infoPlistPath (s : string) : Prop :=
  exists seg, s = "Payload/" ++ seg ++ "/Info.plist" /\
              seg <> "" /\ Contains seg "/" = false.

(** The name has an [infoPlistPath] somewhere inside it. *)
Definition containsInfoPlistPath (name : string) : Prop :=
  exists pre mid post, name = pre ++ mid ++ post /\ infoPlistPath mid.

(** The identity fields of [info] are those of the plist record [p]:
    the display name when it is not empty and the bundle name otherwise,
    and the identifier, short version and version as they are. *)
Definition ipaFields (p : iosPlist) (info : AppInfo) : Prop :=
  (CFBundleDisplayName p <> "" -> Name info = CFBundleDisplayName p) /\
  (CFBundleDisplayName p = "" -> Name info = CFBundleName p) /\
  BundleId info = CFBundleIdentifier p /\
  Version info = CFBundleShortVersion p /\
  Build info = CFBundleVersion p.

(* ================================================================= *)
(** ** Sample packages

    Small concrete collaborators and archives on which the pipeline is
    evaluated below. *)

Module Sample.

Fixpoint hasMagic (magic data : bytes) : bool :=
  match magic, data with
  | [], _ => true
  | _ :: _, [] => false
  | m :: magic', d :: data' => Byte.eqb m d && hasMagic magic' data'
  end.

Definition axmlMagic : bytes := [Byte.x03; Byte.x00; Byte.x08; Byte.x00].
Definition bplistMagic : bytes := [Byte.x62; Byte.x70; Byte.x6c; Byte.x69].
Definition pngMagic : bytes := [Byte.x89; Byte.x50; Byte.x4e; Byte.x47].

(** An optimised icon that reverts cleanly, one whose reversal stops on
    image data after a usable PNG has been written, and one whose
    reversal stops on image data with an unusable buffer. *)
Definition cgbiGood : bytes := (pngMagic ++ [Byte.x43; Byte.x67; Byte.x42; Byte.x49])%list.
Definition cgbiRecoverable : bytes := (pngMagic ++ [Byte.x43; Byte.x67; Byte.x01])%list.
Definition cgbiTruncated : bytes := (pngMagic ++ [Byte.x43; Byte.x67; Byte.x00])%list.

Definition manifest : androidManifest :=
  {| Package := "com.example.app"; VersionName := "1.2.3"; VersionCode := "7" |}.

Definition plistOf (display : string) : iosPlist :=
  {| CFBundleName := "Example"; CFBundleDisplayName := display;
     CFBundleVersion := "42"; CFBundleShortVersion := "1.2.3";
     CFBundleIdentifier := "com.example.ios" |}.

Definition icon : Image := {| img_width := 2; img_height := 1; img_pix := [Byte.xff; Byte.x00] |}.

Definition entry (name : string) (data : bytes) : zipFile :=
  {| zf_Name := name; zf_Open := Ok {| rc_data := data; rc_err := None |} |}.

Definition manifestEntry : zipFile := entry "AndroidManifest.xml" axmlMagic.
Definition staleManifestEntry : zipFile := entry "AndroidManifest.xml" [Byte.x00].
Definition plistEntry : zipFile := entry "Payload/Example.app/Info.plist" bplistMagic.
Definition iconEntry (data : bytes) : zipFile :=
  entry "Payload/Example.app/AppIcon60x60@2x.png" data.
Definition otherEntry : zipFile := entry "classes.dex" [Byte.x64; Byte.x65; Byte.x78].

Definition package (hasIcon : bool) : Apk :=
  {| apk_Icon := fun config =>
       if hasIcon && Z.eqb (Density config) 720 then (Some icon, None)
       else (None, Some (errors_New "resource not found"));
     apk_Label := fun _ => ("Example", None) |}.

Definition revert (rc : ReadCloser) : bytes * option error :=
  if hasMagic cgbiGood (rc_data rc) then (pngMagic, None)
  else if hasMagic cgbiRecoverable (rc_data rc) then (pngMagic, Some ErrImageData)
  else if hasMagic cgbiTruncated (rc_data rc) then ([Byte.x89; Byte.x50], Some ErrImageData)
  else ([], Some (errors_New "Not a Png")).

(** A world holding one file at [path], which [Stat] names [base] and
    measures [size]; [archive] is what the ZIP reader makes of it,
    [pkg] what the resource-table accessor makes of it, and the plist
    decoder reads [display] as the display name. *)
Definition world (path base : string) (size : Z) (archive : result (list zipFile))
    (pkg : result Apk) (display : string) : World :=
  {| os_Open := fun name =>
       if String.eqb name path
       then Ok {| file_Stat := Ok {| fi_Name := base; fi_Size := size |}; file_data := [] |}
       else Err (errors_New "no such file or directory");
     zip_NewReader := fun _ _ => archive;
     androidbinary_NewXMLFile := fun data =>
       if hasMagic axmlMagic data then Ok "<manifest/>"
       else Err (errors_New "invalid chunk header");
     xml_Decode := fun text =>
       if String.eqb text "" then Err (errors_New "EOF") else Ok manifest;
     apk_OpenFile := fun name =>
       if String.eqb name path then pkg else Err (errors_New "no such file or directory");
     plist_Decode := fun data =>
       if hasMagic bplistMagic data then Ok (plistOf display)
       else Err (errors_New "invalid property list");
     iospng_PngRevertOptimization := revert;
     png_Decode := fun data =>
       if hasMagic pngMagic data then (Some icon, None)
       else (None, Some (errors_New "png: invalid format: not a PNG file")) |}.

Definition notZip : result (list zipFile) := Err (errors_New "zip: not a valid zip file").

(** A well-formed Android package. *)
Definition apkWorld : World :=
  world "/tmp/example.apk" "example.apk" 4096
        (Ok [manifestEntry; otherEntry]) (Ok (package true)) "".

(** The same package with the manifest entry removed. *)
Definition apkNoManifestWorld : World :=
  world "/tmp/example.apk" "example.apk" 4000
        (Ok [otherEntry]) (Ok (package true)) "".

(** An Android package whose resource table has no icon. *)
Definition apkNoIconWorld : World :=
  world "/tmp/example.apk" "example.apk" 4096
        (Ok [manifestEntry; otherEntry]) (Ok (package false)) "".

(** A well-formed iOS package with the given display name and icon bytes. *)
Definition ipaWorld (display : string) (iconData : bytes) : World :=
  world "/tmp/example.ipa" "example.ipa" 8192
        (Ok [plistEntry; iconEntry iconData])
        (Err (errors_New "AndroidManifest.xml not found")) display.

(** A ZIP archive that is no package, and a text file. *)
Definition zipWorld : World :=
  world "/tmp/bundle.zip" "bundle.zip" 512
        (Ok [otherEntry]) (Err (errors_New "AndroidManifest.xml not found")) "".
Definition textWorld : World :=
  world "/tmp/notes.txt" "notes.txt" 12 notZip (Err (errors_New "zip: not a valid zip file")) "".

(** iOS packages with the plist entry, respectively the icon entry,
    removed. *)
Definition ipaNoPlistWorld : World :=
  world "/tmp/example.ipa" "example.ipa" 8000
        (Ok [otherEntry; iconEntry cgbiGood])
        (Err (errors_New "AndroidManifest.xml not found")) "".
Definition ipaNoIconWorld : World :=
  world "/tmp/example.ipa" "example.ipa" 8000
        (Ok [plistEntry; otherEntry])
        (Err (errors_New "AndroidManifest.xml not found")) "".

(** [W] with the three decoders of the iOS path replaced by ones that
    always fail, and with the three collaborators of the Android path
    replaced by ones that always fail. *)
Definition withoutIosDecoders (W : World) : World :=
  {| os_Open := os_Open W;
     zip_NewReader := zip_NewReader W;
     androidbinary_NewXMLFile := androidbinary_NewXMLFile W;
     xml_Decode := xml_Decode W;
     apk_OpenFile := apk_OpenFile W;
     plist_Decode := fun _ => Err (errors_New "unavailable");
     iospng_PngRevertOptimization := fun _ => ([], Some (errors_New "unavailable"));
     png_Decode := fun _ => (None, Some (errors_New "unavailable")) |}.
Definition withoutAndroidDecoders (W : World) : World :=
  {| os_Open := os_Open W;
     zip_NewReader := zip_NewReader W;
     androidbinary_NewXMLFile := fun _ => Err (errors_New "unavailable");
     xml_Decode := fun _ => Err (errors_New "unavailable");
     apk_OpenFile := fun _ => Err (errors_New "unavailable");
     plist_Decode := plist_Decode W;
     iospng_PngRevertOptimization := iospng_PngRevertOptimization W;
     png_Decode := png_Decode W |}.

End Sample.

(* ================================================================= *)
(** * Properties *)

(** ** Strings *)

Module GoStringFacts.
Import GoString.

Lemma HasPrefix_spec (p s : string) :
  HasPrefix s p = true <-> exists t, s = p ++ t.
Proof.
  revert s. induction p as [|c p IH]; intros s.
  - simpl. destruct s; split; eauto.
  - destruct s as [|d s]; simpl.
    + split; [discriminate | intros [t H]; discriminate].
    + rewrite andb_true_iff, Ascii.eqb_eq, IH. split.
      * intros [-> [t ->]]. eauto.
      * intros [t H]. injection H as -> ->. eauto.
Qed.

Lemma Contains_nil (sub : string) :
  Contains "" sub = HasPrefix "" sub.
Proof. simpl. apply orb_false_r. Qed.

Lemma Contains_cons (c : ascii) (s sub : string) :
  Contains (String c s) sub = HasPrefix (String c s) sub || Contains s sub.
Proof. reflexivity. Qed.

Lemma Contains_spec (s sub : string) :
  Contains s sub = true <-> exists pre post, s = pre ++ sub ++ post.
Proof.
  induction s as [|c s IH].
  - rewrite Contains_nil, HasPrefix_spec. split.
    + intros [t H]. exists "", t. exact H.
    + intros [pre [post H]]. destruct pre; simpl in H; [eauto | discriminate].
  - rewrite Contains_cons, orb_true_iff, HasPrefix_spec, IH. split.
    + intros [[t H] | [pre [post H]]].
      * exists "", t. exact H.
      * exists (String c pre), post. simpl. now rewrite H.
    + intros [pre [post H]]. destruct pre as [|d pre]; simpl in H.
      * left. eauto.
      * right. injection H as _ H. eauto.
Qed.

(** A string free of the byte [c], said with [strings.Contains]. *)
Lemma Contains_byte_cons (c d : ascii) (s : string) :
  Contains (String d s) (String c "") = Ascii.eqb d c || Contains s (String c "").
Proof.
  rewrite Contains_cons. simpl. destruct s; now rewrite andb_true_r.
Qed.

Lemma append_nil_r (s : string) : s ++ "" = s.
Proof. induction s; simpl; congruence. Qed.

Lemma append_assoc (a b c : string) : (a ++ b) ++ c = a ++ b ++ c.
Proof. induction a; simpl; congruence. Qed.

Lemma append_eq_nil (a b : string) : a ++ b = "" -> a = "" /\ b = "".
Proof. destruct a; simpl; [auto | discriminate]. Qed.

End GoStringFacts.

(** ** Regular expressions: the matcher decides the language *)

Module RegexpFacts.
Import GoString Regexp GoStringFacts.

Lemma Matches_nil_nullable (r : regexp) (s : string) :
  Matches r s -> s = "" -> nullable r = true.
Proof.
  induction 1 as [ | c | c d N | r1 r2 s1 s2 H1 IH1 H2 IH2 | r1 r2 s H IH
                 | r1 r2 s H IH | r | r s1 s2 H1 IH1 H2 IH2 ];
    intros E; simpl; try discriminate; auto.
  - apply append_eq_nil in E as [-> ->]. now rewrite IH1, IH2.
  - now rewrite IH.
  - rewrite IH by assumption. apply orb_true_r.
Qed.

Lemma nullable_spec (r : regexp) : nullable r = true <-> Matches r "".
Proof.
  split.
  - induction r; simpl; intros H; try discriminate.
    + constructor.
    + apply andb_true_iff in H as [H1 H2].
      change "" with ("" ++ ""). constructor; auto.
    + apply orb_true_iff in H as [H|H]; [apply MAltL | apply MAltR]; auto.
    + constructor.
  - intros H. now apply Matches_nil_nullable with (s := "").
Qed.

Lemma MCat_cons (a : ascii) (r1 r2 : regexp) (s1 s2 : string) :
  Matches r1 (String a s1) -> Matches r2 s2 -> Matches (Cat r1 r2) (String a (s1 ++ s2)).
Proof. intros H1 H2. exact (MCat H1 H2). Qed.

Lemma MStar_cons (a : ascii) (r : regexp) (s1 s2 : string) :
  Matches r (String a s1) -> Matches (Star r) s2 -> Matches (Star r) (String a (s1 ++ s2)).
Proof. intros H1 H2. exact (MStarCons H1 H2). Qed.

Ltac invert_Matches :=
  match goal with
  | H : Matches Void _ |- _ => inversion H
  | H : Matches Eps _ |- _ => inversion H; subst; clear H
  | H : Matches (Lit _) _ |- _ => inversion H; subst; clear H
  | H : Matches (NotLit _) _ |- _ => inversion H; subst; clear H
  | H : Matches (Cat _ _) _ |- _ => inversion H; subst; clear H
  | H : Matches (Alt _ _) _ |- _ => inversion H; subst; clear H
  end.

Lemma deriv_sound (a : ascii) (r : regexp) :
  forall s, Matches (deriv a r) s -> Matches r (String a s).
Proof.
  induction r; simpl; intros s H.
  - invert_Matches.
  - invert_Matches.
  - destruct (Ascii.eqb_spec a c) as [->|]; invert_Matches. constructor.
  - destruct (Ascii.eqb_spec a c) as [|N]; invert_Matches. now constructor.
  - destruct (nullable r1) eqn:N.
    + invert_Matches.
      * invert_Matches. apply MCat_cons; auto.
      * change (String a s) with ("" ++ String a s).
        constructor; [now apply nullable_spec | auto].
    + invert_Matches. apply MCat_cons; auto.
  - invert_Matches; [apply MAltL | apply MAltR]; auto.
  - invert_Matches. apply MStar_cons; auto.
Qed.

Lemma deriv_complete (r : regexp) (w : string) :
  Matches r w -> forall x t, w = String x t -> Matches (deriv x r) t.
Proof.
  induction 1 as [ | c | c d N | r1 r2 s1 s2 H1 IH1 H2 IH2 | r1 r2 s H IH
                 | r1 r2 s H IH | r | r s1 s2 H1 IH1 H2 IH2 ];
    intros x t E; simpl; try discriminate.
  - injection E as -> <-. rewrite Ascii.eqb_refl. constructor.
  - injection E as <- <-.
    destruct (Ascii.eqb_spec d c); [contradiction | constructor].
  - destruct s1 as [|b s1]; simpl in E.
    + subst s2. rewrite (Matches_nil_nullable H1 eq_refl).
      apply MAltR. now apply IH2.
    + injection E as -> <-.
      assert (D : Matches (Cat (deriv x r1) r2) (s1 ++ s2))
        by (constructor; [now apply IH1 | assumption]).
      destruct (nullable r1); [now apply MAltL | assumption].
  - apply MAltL. now apply IH.
  - apply MAltR. now apply IH.
  - destruct s1 as [|b s1]; simpl in E.
    + now apply IH2.
    + injection E as -> <-. constructor; [now apply IH1 | assumption].
Qed.

Lemma deriv_spec (a : ascii) (r : regexp) (s : string) :
  Matches (deriv a r) s <-> Matches r (String a s).
Proof.
  split; [apply deriv_sound | intros H; now apply deriv_complete with (w := String a s)].
Qed.

Lemma matchPrefix_spec (s : string) :
  forall r, matchPrefix r s = true <-> exists p q, s = p ++ q /\ Matches r p.
Proof.
  induction s as [|a s IH]; intros r; simpl.
  - rewrite orb_false_r, nullable_spec. split.
    + intros H. now exists "", "".
    + intros (p & q & E & H). symmetry in E. apply append_eq_nil in E as [-> _]. exact H.
  - rewrite orb_true_iff, nullable_spec, IH. split.
    + intros [H | (p & q & -> & H)].
      * now exists "", (String a s).
      * exists (String a p), q. split; [reflexivity | now apply deriv_spec].
    + intros (p & q & E & H). destruct p as [|b p]; simpl in E.
      * now left.
      * injection E as <- ->. right. exists p, q. split; [reflexivity | now apply deriv_spec].
Qed.

(** [MatchString] holds exactly of the strings that contain a match. *)
Lemma MatchString_spec (r : regexp) (s : string) :
  MatchString r s = true <->
  exists pre mid post, s = pre ++ mid ++ post /\ Matches r mid.
Proof.
  induction s as [|a s IH]; simpl.
  - rewrite !orb_false_r, nullable_spec. split.
    + intros H. now exists "", "", "".
    + intros (pre & mid & post & E & H).
      symmetry in E. apply append_eq_nil in E as [_ E].
      apply append_eq_nil in E as [-> _]. exact H.
  - rewrite orb_true_iff, IH.
    change (nullable r || matchPrefix (deriv a r) s) with (matchPrefix r (String a s)).
    rewrite matchPrefix_spec. split.
    + intros [(p & q & E & H) | (pre & mid & post & -> & H)].
      * now exists "", p, q.
      * now exists (String a pre), mid, post.
    + intros (pre & mid & post & E & H). destruct pre as [|b pre]; simpl in E.
      * left. now exists mid, post.
      * injection E as <- ->. right. now exists pre, mid, post.
Qed.

Lemma Matches_Str (w s : string) : Matches (Str w) s <-> s = w.
Proof.
  revert s. induction w as [|c w IH]; intros s; simpl; split; intros H.
  - now inversion H.
  - subst. constructor.
  - do 2 invert_Matches. simpl. f_equal. now apply IH.
  - subst. change (String c w) with (String c "" ++ w).
    constructor; [constructor | now apply IH].
Qed.

Lemma Matches_Star_NotLit_free (r : regexp) (s : string) :
  Matches r s -> forall c, r = Star (NotLit c) -> Contains s (String c "") = false.
Proof.
  induction 1 as [ | | | | | | r | r s1 s2 H1 IH1 H2 IH2 ];
    intros c0 E; try discriminate.
  - reflexivity.
  - injection E as ->. inversion H1; subst. simpl append.
    rewrite Contains_byte_cons, (IH2 c0 eq_refl), orb_false_r.
    now apply Ascii.eqb_neq.
Qed.

Lemma Matches_Star_NotLit (c : ascii) (s : string) :
  Matches (Star (NotLit c)) s <-> Contains s (String c "") = false.
Proof.
  split.
  - intros H. now apply Matches_Star_NotLit_free with (r := Star (NotLit c)).
  - induction s as [|d s IH]; intros H.
    + constructor.
    + rewrite Contains_byte_cons in H. apply orb_false_iff in H as [N H].
      change (String d s) with (String d "" ++ s).
      constructor; [constructor; now apply Ascii.eqb_neq | now apply IH].
Qed.

Lemma Matches_Plus_NotLit (c : ascii) (s : string) :
  Matches (Plus (NotLit c)) s <-> s <> "" /\ Contains s (String c "") = false.
Proof.
  unfold Plus. split.
  - intros H. do 2 invert_Matches. simpl append. split.
    + discriminate.
    + rewrite Contains_byte_cons, orb_false_iff. split.
      * now apply Ascii.eqb_neq.
      * now apply Matches_Star_NotLit.
  - intros [N H]. destruct s as [|d s]; [contradiction|].
    rewrite Contains_byte_cons in H. apply orb_false_iff in H as [Hd H].
    change (String d s) with (String d "" ++ s).
    constructor; [constructor; now apply Ascii.eqb_neq | now apply Matches_Star_NotLit].
Qed.

End RegexpFacts.

(** ** The container scanner *)

Import GoString Regexp GoStringFacts RegexpFacts.

Lemma reInfoPlist_language (s : string) :
  Matches reInfoPlist s <-> infoPlistPath s.
Proof.
  unfold reInfoPlist, infoPlistPath. split.
  - intros H. inversion H as [| | | ? ? s1 s23 H1 H23 | | | |]; subst.
    inversion H23 as [| | | ? ? seg s3 H2 H3 | | | |]; subst.
    apply (proj1 (Matches_Str "Payload/" _)) in H1.
    apply (proj1 (Matches_Str "/Info.plist" _)) in H3.
    apply (proj1 (Matches_Plus_NotLit "/" _)) in H2.
    subst. now exists seg.
  - intros (seg & -> & N & F).
    apply (MCat (s1 := "Payload/")); [now apply Matches_Str|].
    constructor; [now apply Matches_Plus_NotLit | now apply Matches_Str].
Qed.

Lemma MatchString_reInfoPlist (name : string) :
  MatchString reInfoPlist name = true <-> containsInfoPlistPath name.
Proof.
  rewrite MatchString_spec. unfold containsInfoPlistPath.
  split; intros (pre & mid & post & E & H); exists pre, mid, post;
    (split; [exact E | now apply reInfoPlist_language]).
Qed.

Lemma classify_manifest (name : string) :
  classify name = Some AndroidManifestEntry <-> name = "AndroidManifest.xml".
Proof.
  unfold classify. destruct (String.eqb_spec name "AndroidManifest.xml") as [E|N].
  - tauto.
  - destruct (MatchString reInfoPlist name); [|destruct (Contains name "AppIcon60x60")];
      split; intros H; solve [discriminate | contradiction].
Qed.

Lemma classify_plist (name : string) :
  classify name = Some InfoPlistEntry <-> MatchString reInfoPlist name = true.
Proof.
  unfold classify. destruct (String.eqb_spec name "AndroidManifest.xml") as [E|N].
  - subst. vm_compute. split; discriminate.
  - destruct (MatchString reInfoPlist name); [tauto|].
    destruct (Contains name "AppIcon60x60"); split; discriminate.
Qed.

Lemma classify_icon (name : string) :
  classify name = Some IosIconEntry <->
  Contains name "AppIcon60x60" = true /\ MatchString reInfoPlist name = false.
Proof.
  unfold classify. destruct (String.eqb_spec name "AndroidManifest.xml") as [E|N].
  - subst. vm_compute. split; [discriminate | intros [H _]; discriminate].
  - destruct (MatchString reInfoPlist name).
    + split; [discriminate | intros [_ H]; discriminate].
    + destruct (Contains name "AppIcon60x60"); split; auto; try discriminate.
      intros [H _]; discriminate.
Qed.

Lemma entryKind_eqb_eq (a b : entryKind) : entryKind_eqb a b = true <-> a = b.
Proof. destruct a, b; simpl; split; congruence. Qed.

Lemma is_kind_spec (k : entryKind) (f : zipFile) :
  is_kind k f = true <-> classify (zf_Name f) = Some k.
Proof.
  unfold is_kind. destruct (classify (zf_Name f)) as [k'|].
  - rewrite entryKind_eqb_eq. split; congruence.
  - split; discriminate.
Qed.

Lemma slot_scan_step (k : entryKind) (st : scanned) (f : zipFile) :
  slot k (scan_step st f) = if is_kind k f then Some f else slot k st.
Proof.
  unfold scan_step, is_kind.
  destruct (classify (zf_Name f)) as [[]|]; destruct k; reflexivity.
Qed.

Lemma scan_snoc (files : list zipFile) (f : zipFile) :
  scan (files ++ [f]) = scan_step (scan files) f.
Proof. unfold scan. now rewrite fold_left_app. Qed.

Lemma slot_scan (k : entryKind) (files : list zipFile) :
  slot k (scan files) = find (is_kind k) (rev files).
Proof.
  induction files as [|f files IH] using rev_ind.
  - destruct k; reflexivity.
  - rewrite scan_snoc, slot_scan_step, rev_app_distr. simpl.
    destruct (is_kind k f); [reflexivity | exact IH].
Qed.

Lemma scan_no_manifest (files : list zipFile) :
  (forall f, In f files -> zf_Name f <> "AndroidManifest.xml") ->
  xmlFile (scan files) = None.
Proof.
  intros H. change (slot AndroidManifestEntry (scan files) = None).
  rewrite slot_scan.
  destruct (find (is_kind AndroidManifestEntry) (rev files)) as [f|] eqn:E; [|reflexivity].
  apply find_some in E as [I K]. apply in_rev in I.
  apply is_kind_spec, classify_manifest in K. now apply H in I.
Qed.

Lemma find_first (A : Type) (p : A -> bool) (l : list A) (x : A) :
  find p l = Some x <->
  exists l1 l2, l = (l1 ++ x :: l2)%list /\ p x = true /\ Forall (fun y => p y = false) l1.
Proof.
  induction l as [|a l IH]; simpl.
  - split; [discriminate | intros (l1 & l2 & E & _); destruct l1; discriminate].
  - destruct (p a) eqn:Pa.
    + split.
      * intros [= ->]. exists [], l. auto.
      * intros (l1 & l2 & E & Px & F). destruct l1 as [|b l1]; simpl in E.
        -- now injection E as ->.
        -- injection E as -> _. inversion F; congruence.
    + rewrite IH. split; intros (l1 & l2 & E & Px & F).
      * exists (a :: l1), l2. subst. simpl. auto.
      * destruct l1 as [|b l1]; simpl in E; injection E as -> E.
        -- congruence.
        -- inversion F; subst. eauto.
Qed.

Lemma find_none_Forall (A : Type) (p : A -> bool) (l : list A) :
  find p l = None <-> Forall (fun y => p y = false) l.
Proof.
  induction l as [|a l IH]; simpl.
  - split; auto.
  - destruct (p a) eqn:Pa.
    + split; [discriminate | intros F; inversion F; congruence].
    + rewrite IH. split; [auto | intros F; now inversion F].
Qed.

(** C2 (as amended): for each of the three patterns the scanner keeps
    the latest entry, in archive order, that takes the pattern's case of
    the switch: its variable holds [f] exactly when [f] takes that case
    and no entry after [f] does (entries before [f] are overwritten), and
    it stays nil exactly when no entry takes that case. *)
Theorem scan_keeps_latest_match (files : list zipFile) (k : entryKind) :
  (forall f, slot k (scan files) = Some f <->
     exists earlier later, files = (earlier ++ f :: later)%list /\
       is_kind k f = true /\ Forall (fun g => is_kind k g = false) later) /\
  (slot k (scan files) = None <-> Forall (fun g => is_kind k g = false) files).
Proof.
  rewrite slot_scan. split.
  - intros f. rewrite find_first. split.
    + intros (l1 & l2 & E & K & F). exists (rev l2), (rev l1).
      apply (f_equal (@rev zipFile)) in E.
      rewrite rev_involutive, rev_app_distr in E. simpl in E.
      rewrite <- app_assoc in E. simpl in E.
      repeat split; auto. apply Forall_rev. exact F.
    + intros (pre & post & E & K & F). exists (rev post), (rev pre).
      subst files. rewrite rev_app_distr. simpl. rewrite <- app_assoc. simpl.
      repeat split; auto. apply Forall_rev. exact F.
  - rewrite find_none_Forall. split; intros F.
    + rewrite <- (rev_involutive files). now apply Forall_rev.
    + now apply Forall_rev.
Qed.

(** C2 (as stated) fails: of two entries named AndroidManifest.xml the
    scanner keeps the second, not the earliest. *)
Lemma earliest_match_does_not_win :
  find (is_kind AndroidManifestEntry) [Sample.staleManifestEntry; Sample.manifestEntry]
    = Some Sample.staleManifestEntry /\
  xmlFile (scan [Sample.staleManifestEntry; Sample.manifestEntry])
    = Some Sample.manifestEntry /\
  Sample.manifestEntry <> Sample.staleManifestEntry.
Proof.
  split; [reflexivity | split; [reflexivity | discriminate]].
Qed.

(** C6 (as amended): an entry is taken as the plist entry exactly when
    its name contains, anywhere, a piece of the shape
    Payload/segment/Info.plist with a non-empty slash-free segment; it is
    taken as the icon entry exactly when its name contains the fragment
    AppIcon60x60 and no such piece. *)
Theorem classify_plist_and_icon (name : string) :
  (classify name = Some InfoPlistEntry <-> containsInfoPlistPath name) /\
  (classify name = Some IosIconEntry <->
     Contains name "AppIcon60x60" = true /\ ~ containsInfoPlistPath name).
Proof.
  split.
  - now rewrite classify_plist, MatchString_reInfoPlist.
  - rewrite classify_icon, <- MatchString_reInfoPlist.
    now rewrite not_true_iff_false.
Qed.

(** C6 (as stated) fails twice: a name is taken as the plist entry
    although the pattern covers only a part of it, and a name that
    contains the icon fragment is not taken as the icon entry. *)
Lemma classify_is_not_whole_name_match :
  (classify "backup/Payload/Example.app/Info.plist.orig" = Some InfoPlistEntry /\
   ~ infoPlistPath "backup/Payload/Example.app/Info.plist.orig") /\
  (Contains "Payload/AppIcon60x60.app/Info.plist" "AppIcon60x60" = true /\
   classify "Payload/AppIcon60x60.app/Info.plist" <> Some IosIconEntry).
Proof.
  repeat split.
  - intros (seg & E & _). discriminate E.
  - discriminate.
Qed.

(** ** The extraction pipeline *)

Lemma parseApkIconAndLabel_error (W : World) (name : string)
    (icon : option Image) (label : string) (err : error) :
  parseApkIconAndLabel W name = (icon, label, Some err) -> icon = None /\ label = "".
Proof.
  unfold parseApkIconAndLabel. destruct (apk_OpenFile W name) as [pkg|e].
  - destruct (apk_Icon pkg _) as [[i|] ie].
    + destruct (apk_Label pkg None). discriminate.
    + intros [= <- <- _]. auto.
  - intros [= <- <- _]. auto.
Qed.

(** C1: the claim holds of the specification, not of the code.  On an
    .apk whose archive has no entry named AndroidManifest.xml the error
    of parseApkFile is overwritten by the icon/label step and the nil
    record is then written through: the call panics, whatever the
    icon/label step returns. *)
Theorem apk_without_manifest_panics (W : World) (name : string)
    (file : osFile) (stat : FileInfo) (reader : list zipFile) :
  os_Open W name = Ok file ->
  file_Stat file = Ok stat ->
  zip_NewReader W file (fi_Size stat) = Ok reader ->
  Ext (fi_Name stat) = androidExt ->
  (forall f, In f reader -> zf_Name f <> "AndroidManifest.xml") ->
  parseApkFile W (xmlFile (scan reader))
    = (None, Some (errors_New "AndroidManifest.xml is not found")) /\
  NewAppParser W name = Panics nilDereference.
Proof.
  intros Hopen Hstat Hzip Hext Hnone.
  apply scan_no_manifest in Hnone. split.
  - now rewrite Hnone.
  - unfold NewAppParser. rewrite Hopen, Hstat, Hzip. cbv zeta.
    rewrite Hext, Hnone. simpl.
    now destruct (parseApkIconAndLabel W name) as [[icon label] err].
Qed.

Lemma apk_without_manifest_panics_witness :
  NewAppParser Sample.apkNoManifestWorld "/tmp/example.apk" = Panics nilDereference.
Proof.
  eapply (apk_without_manifest_panics Sample.apkNoManifestWorld "/tmp/example.apk").
  - reflexivity.
  - reflexivity.
  - reflexivity.
  - reflexivity.
  - intros f [<- | []]. discriminate.
Defined.

(** C4: the claim holds of the specification, not of the code.  On an
    .apk whose manifest decodes and whose icon/label step fails, the call
    returns the error together with a record: identifier, version, build
    and size are filled in, name and icon are left empty. *)
Theorem apk_icon_failure_returns_record_with_error (W : World) (name : string)
    (file : osFile) (stat : FileInfo) (reader : list zipFile)
    (f : zipFile) (m : androidManifest) (err : error) :
  os_Open W name = Ok file ->
  file_Stat file = Ok stat ->
  zip_NewReader W file (fi_Size stat) = Ok reader ->
  Ext (fi_Name stat) = androidExt ->
  xmlFile (scan reader) = Some f ->
  parseAndroidManifest W f = Ok m ->
  snd (parseApkIconAndLabel W name) = Some err ->
  NewAppParser W name =
  Returns (Some {| Name := ""; BundleId := Package m; Version := VersionName m;
                   Build := VersionCode m; Icon := None; Size := fi_Size stat |},
           Some err).
Proof.
  intros Hopen Hstat Hzip Hext Hxml Hman Hicon.
  unfold NewAppParser. rewrite Hopen, Hstat, Hzip. cbv zeta.
  rewrite Hext, Hxml. simpl. rewrite Hman.
  destruct (parseApkIconAndLabel W name) as [[icon label] e] eqn:E.
  simpl in Hicon. subst e.
  apply parseApkIconAndLabel_error in E as [-> ->]. reflexivity.
Qed.

Lemma apk_icon_failure_returns_record_with_error_witness :
  NewAppParser Sample.apkNoIconWorld "/tmp/example.apk" =
  Returns (Some {| Name := ""; BundleId := "com.example.app"; Version := "1.2.3";
                   Build := "7"; Icon := None; Size := 4096 |},
           Some (errors_New "Icon is not found")).
Proof.
  eapply (apk_icon_failure_returns_record_with_error
            Sample.apkNoIconWorld "/tmp/example.apk"
            (stat := {| fi_Name := "example.apk"; fi_Size := 4096 |})
            (m := Sample.manifest) (err := errors_New "Icon is not found"));
    reflexivity.
Defined.

(** C5 (as amended): for every input file that can be opened and
    stat'ed and whose name's extension is neither .apk nor .ipa, the call
    fails and produces no record; the error is the unrecognized-platform
    error when the file reads as a ZIP archive, and the wrapped error of
    the ZIP reader when it does not. *)
Theorem other_extension_fails_without_record (W : World) (name : string)
    (file : osFile) (stat : FileInfo) :
  os_Open W name = Ok file ->
  file_Stat file = Ok stat ->
  Ext (fi_Name stat) <> androidExt ->
  Ext (fi_Name stat) <> iosExt ->
  NewAppParser W name =
  match zip_NewReader W file (fi_Size stat) with
  | Ok _ => Returns (None, Some (errors_New "unknown platform"))
  | Err err => Returns (None, Some (fmt_Errorf "failed reading zip file: %v" [VError err]))
  end.
Proof.
  intros Hopen Hstat Hapk Hipa.
  unfold NewAppParser. rewrite Hopen, Hstat.
  destruct (zip_NewReader W file (fi_Size stat)) as [reader|err]; [|reflexivity].
  cbv zeta. apply String.eqb_neq in Hapk, Hipa. now rewrite Hapk, Hipa.
Qed.

Lemma other_extension_fails_without_record_witness :
  NewAppParser Sample.zipWorld "/tmp/bundle.zip" =
  Returns (None, Some (errors_New "unknown platform")).
Proof.
  refine (other_extension_fails_without_record
            Sample.zipWorld "/tmp/bundle.zip" (stat := {| fi_Name := "bundle.zip"; fi_Size := 512 |})
            eq_refl eq_refl _ _); discriminate.
Defined.

(** C5 (as stated) fails: a text file named notes.txt has neither
    extension, yet the call fails with the error of the ZIP reader, not
    with the unrecognized-platform error. *)
Lemma other_extension_not_always_unknown_platform :
  Ext "notes.txt" <> androidExt /\ Ext "notes.txt" <> iosExt /\
  Ext "/tmp/notes.txt" <> androidExt /\ Ext "/tmp/notes.txt" <> iosExt /\
  NewAppParser Sample.textWorld "/tmp/notes.txt" =
    Returns (None, Some (fmt_Errorf "failed reading zip file: %v"
                                    [VError (errors_New "zip: not a valid zip file")])) /\
  NewAppParser Sample.textWorld "/tmp/notes.txt" <>
    Returns (None, Some (errors_New "unknown platform")).
Proof.
  repeat split; discriminate.
Qed.

(** C7: on a well-formed .apk whose manifest entry decodes to the
    attributes package, versionName and versionCode and whose resource
    table yields an icon at density 720 and a label, the call returns,
    with a nil error, the record whose name is the label, whose
    identifier, version and build are the three attributes, whose icon is
    the resolved (non-nil) icon and whose size is the byte length of the
    file. *)
Theorem apk_well_formed_record (W : World) (name : string)
    (file : osFile) (stat : FileInfo) (reader : list zipFile)
    (f : zipFile) (rc : ReadCloser) (xmlContent : string) (m : androidManifest)
    (pkg : Apk) (icon : Image) (iconErr : option error)
    (label : string) (labelErr : option error) :
  os_Open W name = Ok file ->
  file_Stat file = Ok stat ->
  zip_NewReader W file (fi_Size stat) = Ok reader ->
  Ext (fi_Name stat) = androidExt ->
  xmlFile (scan reader) = Some f ->
  zf_Open f = Ok rc ->
  rc_err rc = None ->
  androidbinary_NewXMLFile W (rc_data rc) = Ok xmlContent ->
  xml_Decode W xmlContent = Ok m ->
  apk_OpenFile W name = Ok pkg ->
  apk_Icon pkg {| Density := 720 |} = (Some icon, iconErr) ->
  apk_Label pkg None = (label, labelErr) ->
  NewAppParser W name =
  Returns (Some {| Name := label; BundleId := Package m; Version := VersionName m;
                   Build := VersionCode m; Icon := Some icon; Size := fi_Size stat |},
           None).
Proof.
  intros Hopen Hstat Hzip Hext Hxml Hrc Hread Hbin Hdec Hpkg Hicon Hlabel.
  unfold NewAppParser. rewrite Hopen, Hstat, Hzip. cbv zeta.
  rewrite Hext, Hxml. simpl.
  unfold parseAndroidManifest, ioutil_ReadAll. rewrite Hrc, Hread, Hbin, Hdec.
  unfold parseApkIconAndLabel. rewrite Hpkg, Hicon, Hlabel. reflexivity.
Qed.

Lemma apk_well_formed_record_witness :
  NewAppParser Sample.apkWorld "/tmp/example.apk" =
  Returns (Some {| Name := "Example"; BundleId := "com.example.app"; Version := "1.2.3";
                   Build := "7"; Icon := Some Sample.icon; Size := 4096 |},
           None).
Proof.
  eapply (apk_well_formed_record Sample.apkWorld "/tmp/example.apk"
            (stat := {| fi_Name := "example.apk"; fi_Size := 4096 |})
            (m := Sample.manifest) (icon := Sample.icon) (label := "Example"));
    reflexivity.
Defined.

Lemma parseIpaFile_decoded (W : World) (f : zipFile) (rc : ReadCloser) (p : iosPlist) :
  zf_Open f = Ok rc ->
  rc_err rc = None ->
  plist_Decode W (rc_data rc) = Ok p ->
  exists info, parseIpaFile W (Some f) = (Some info, None) /\ ipaFields p info.
Proof.
  intros Hrc Hread Hdec. unfold parseIpaFile, ioutil_ReadAll.
  rewrite Hrc, Hread, Hdec. eexists. split; [reflexivity|].
  unfold ipaFields. simpl.
  destruct (String.eqb_spec (CFBundleDisplayName p) ""); repeat split; congruence.
Qed.

(** C8: on an .ipa whose plist entry decodes, the plist step yields a
    record whose name is CFBundleDisplayName when that is not empty and
    CFBundleName otherwise and whose identifier, version and build are
    CFBundleIdentifier, CFBundleShortVersionString and CFBundleVersion;
    and every record the call returns carries these same fields. *)
Theorem ipa_identity_fields (W : World) (name : string)
    (file : osFile) (stat : FileInfo) (reader : list zipFile)
    (f : zipFile) (rc : ReadCloser) (p : iosPlist) :
  os_Open W name = Ok file ->
  file_Stat file = Ok stat ->
  zip_NewReader W file (fi_Size stat) = Ok reader ->
  Ext (fi_Name stat) = iosExt ->
  plistFile (scan reader) = Some f ->
  zf_Open f = Ok rc ->
  rc_err rc = None ->
  plist_Decode W (rc_data rc) = Ok p ->
  (exists info0, parseIpaFile W (plistFile (scan reader)) = (Some info0, None) /\
                 ipaFields p info0) /\
  (forall info err, NewAppParser W name = Returns (Some info, err) -> ipaFields p info).
Proof.
  intros Hopen Hstat Hzip Hext Hplist Hrc Hread Hdec.
  destruct (parseIpaFile_decoded W f Hrc Hread Hdec) as (info0 & Hparse & Hfields).
  rewrite Hplist. split; [now exists info0|].
  intros info err. unfold NewAppParser. rewrite Hopen, Hstat, Hzip. cbv zeta.
  rewrite Hext, Hplist, Hparse. simpl.
  destruct (parseIpaIcon W (iosIconFile (scan reader))) as [icon [e|]]; [discriminate|].
  intros [= <- _]. exact Hfields.
Qed.

Lemma ipa_identity_fields_witness :
  ipaFields (Sample.plistOf "")
            {| Name := "Example"; BundleId := "com.example.ios"; Version := "1.2.3";
               Build := "42"; Icon := Some Sample.icon; Size := 8192 |} /\
  ipaFields (Sample.plistOf "Example Pro")
            {| Name := "Example Pro"; BundleId := "com.example.ios"; Version := "1.2.3";
               Build := "42"; Icon := Some Sample.icon; Size := 8192 |}.
Proof.
  split.
  - refine (proj2 (ipa_identity_fields
                     (Sample.ipaWorld "" Sample.cgbiGood) "/tmp/example.ipa"
                     (stat := {| fi_Name := "example.ipa"; fi_Size := 8192 |})
                     (f := Sample.plistEntry) (p := Sample.plistOf "")
                     eq_refl eq_refl eq_refl eq_refl eq_refl eq_refl eq_refl eq_refl)
                  _ None eq_refl).
  - refine (proj2 (ipa_identity_fields
                     (Sample.ipaWorld "Example Pro" Sample.cgbiGood) "/tmp/example.ipa"
                     (stat := {| fi_Name := "example.ipa"; fi_Size := 8192 |})
                     (f := Sample.plistEntry) (p := Sample.plistOf "Example Pro")
                     eq_refl eq_refl eq_refl eq_refl eq_refl eq_refl eq_refl eq_refl)
                  _ None eq_refl).
Defined.

(** C9: whenever the call returns a record, on either platform path and
    whatever error comes with it, the record's size is the byte length
    that Stat reported for the input file. *)
Theorem returned_record_has_file_size (W : World) (name : string)
    (info : AppInfo) (err : option error) :
  NewAppParser W name = Returns (Some info, err) ->
  exists file stat,
    os_Open W name = Ok file /\ file_Stat file = Ok stat /\ Size info = fi_Size stat.
Proof.
  unfold NewAppParser.
  destruct (os_Open W name) as [file|e]; [|discriminate].
  destruct (file_Stat file) as [stat|e] eqn:Hstat; [|discriminate].
  destruct (zip_NewReader W file (fi_Size stat)) as [reader|e]; [|discriminate].
  cbv zeta. intros H. exists file, stat. repeat split; auto.
  destruct (String.eqb (Ext (fi_Name stat)) androidExt).
  - destruct (parseApkFile W (xmlFile (scan reader))) as [[i|] e];
      destruct (parseApkIconAndLabel W name) as [[icon label] e'];
      try discriminate.
    now injection H as <- _.
  - destruct (String.eqb (Ext (fi_Name stat)) iosExt); [|discriminate].
    destruct (parseIpaFile W (plistFile (scan reader))) as [i [e|]]; [discriminate|].
    destruct (parseIpaIcon W (iosIconFile (scan reader))) as [icon [e|]]; [discriminate|].
    destruct i as [i|]; [|discriminate].
    now injection H as <- _.
Qed.

Lemma returned_record_has_file_size_witness :
  (exists file stat,
      os_Open Sample.apkWorld "/tmp/example.apk" = Ok file /\
      file_Stat file = Ok stat /\ 4096%Z = fi_Size stat) /\
  (exists file stat,
      os_Open (Sample.ipaWorld "" Sample.cgbiGood) "/tmp/example.ipa" = Ok file /\
      file_Stat file = Ok stat /\ 8192%Z = fi_Size stat).
Proof.
  split.
  - exact (returned_record_has_file_size Sample.apkWorld "/tmp/example.apk"
             (info := {| Name := "Example"; BundleId := "com.example.app";
                         Version := "1.2.3"; Build := "7";
                         Icon := Some Sample.icon; Size := 4096 |})
             (err := None) eq_refl).
  - exact (returned_record_has_file_size
             (Sample.ipaWorld "" Sample.cgbiGood) "/tmp/example.ipa"
             (info := {| Name := "Example"; BundleId := "com.example.ios";
                         Version := "1.2.3"; Build := "42";
                         Icon := Some Sample.icon; Size := 8192 |})
             (err := None) eq_refl).
Defined.

(** ** The iOS icon step *)

(** C3 (as amended): when the reversal step reports the recoverable
    image-data condition, the icon step decodes the partially reverted
    buffer as a PNG and returns whatever that decode yields together with
    a nil error: the decoded icon when the decode succeeds, a nil icon
    when it fails, the decode error being dropped.  A failure of the
    final decode is fatal on the other branch, where the reversal step
    reported no error. *)
Theorem image_data_branch_drops_decode_error (W : World)
    (f : zipFile) (rc : ReadCloser) (w : bytes) (reverted : option error) :
  zf_Open f = Ok rc ->
  iospng_PngRevertOptimization W rc = (w, reverted) ->
  (reverted = Some ErrImageData ->
     parseIpaIcon W (Some f) = (fst (png_Decode W w), None)) /\
  (reverted = None ->
     forall image err, png_Decode W w = (image, Some err) ->
       parseIpaIcon W (Some f) =
       (None, Some (fmt_Errorf "failed decoding png: %v" [VError err]))).
Proof.
  intros Hrc Hrev. unfold parseIpaIcon. rewrite Hrc, Hrev. split.
  - intros ->. now destruct (png_Decode W w).
  - intros -> image err Hdec. now rewrite Hdec.
Qed.

Lemma image_data_branch_drops_decode_error_witness :
  parseIpaIcon (Sample.ipaWorld "" Sample.cgbiRecoverable)
               (Some (Sample.iconEntry Sample.cgbiRecoverable))
    = (Some Sample.icon, None) /\
  parseIpaIcon (Sample.ipaWorld "" Sample.cgbiTruncated)
               (Some (Sample.iconEntry Sample.cgbiTruncated))
    = (None, None).
Proof.
  split.
  - exact (proj1 (image_data_branch_drops_decode_error
                    (Sample.ipaWorld "" Sample.cgbiRecoverable)
                    (Sample.iconEntry Sample.cgbiRecoverable)
                    (w := Sample.pngMagic) eq_refl eq_refl) eq_refl).
  - exact (proj1 (image_data_branch_drops_decode_error
                    (Sample.ipaWorld "" Sample.cgbiTruncated)
                    (Sample.iconEntry Sample.cgbiTruncated)
                    (w := [Byte.x89; Byte.x50]) eq_refl eq_refl) eq_refl).
Defined.

(** C3 (as stated) fails: the reversal step reports the image-data
    condition, the partially reverted buffer does not decode as a PNG,
    and still neither the icon step nor the call returns an error: the
    call succeeds with a record that has no icon. *)
Lemma failed_decode_after_image_data_is_not_fatal :
  zf_Open (Sample.iconEntry Sample.cgbiTruncated)
    = Ok {| rc_data := Sample.cgbiTruncated; rc_err := None |} /\
  iospng_PngRevertOptimization (Sample.ipaWorld "Example Pro" Sample.cgbiTruncated)
      {| rc_data := Sample.cgbiTruncated; rc_err := None |}
    = ([Byte.x89; Byte.x50], Some ErrImageData) /\
  png_Decode (Sample.ipaWorld "Example Pro" Sample.cgbiTruncated) [Byte.x89; Byte.x50]
    = (None, Some (errors_New "png: invalid format: not a PNG file")) /\
  parseIpaIcon (Sample.ipaWorld "Example Pro" Sample.cgbiTruncated)
      (Some (Sample.iconEntry Sample.cgbiTruncated))
    = (None, None) /\
  NewAppParser (Sample.ipaWorld "Example Pro" Sample.cgbiTruncated) "/tmp/example.ipa" =
  Returns (Some {| Name := "Example Pro"; BundleId := "com.example.ios";
                   Version := "1.2.3"; Build := "42"; Icon := None; Size := 8192 |},
           None).
Proof.
  repeat split.
Qed.

(** C10: on an .ipa whose plist decodes, whose icon entry makes the
    reversal step report the image-data condition and whose partially
    reverted bytes fail to decode as a PNG, the decode error is
    discarded and the call succeeds: it returns a record with a nil icon
    and a nil error. *)
Theorem ipa_undecodable_icon_still_succeeds (W : World) (name : string)
    (file : osFile) (stat : FileInfo) (reader : list zipFile)
    (pf : zipFile) (prc : ReadCloser) (p : iosPlist)
    (icf : zipFile) (irc : ReadCloser) (w : bytes) (decodeErr : error) :
  os_Open W name = Ok file ->
  file_Stat file = Ok stat ->
  zip_NewReader W file (fi_Size stat) = Ok reader ->
  Ext (fi_Name stat) = iosExt ->
  plistFile (scan reader) = Some pf ->
  zf_Open pf = Ok prc ->
  rc_err prc = None ->
  plist_Decode W (rc_data prc) = Ok p ->
  iosIconFile (scan reader) = Some icf ->
  zf_Open icf = Ok irc ->
  iospng_PngRevertOptimization W irc = (w, Some ErrImageData) ->
  png_Decode W w = (None, Some decodeErr) ->
  exists info,
    NewAppParser W name = Returns (Some info, None) /\
    Icon info = None /\ Size info = fi_Size stat /\ ipaFields p info.
Proof.
  intros Hopen Hstat Hzip Hext Hplist Hprc Hread Hdec Hicon Hirc Hrev Hpng.
  destruct (parseIpaFile_decoded W pf Hprc Hread Hdec) as (info0 & Hparse & Hfields).
  unfold NewAppParser. rewrite Hopen, Hstat, Hzip. cbv zeta.
  rewrite Hext, Hplist, Hparse, Hicon. simpl.
  unfold parseIpaIcon. rewrite Hirc, Hrev, Hpng.
  eexists. split; [reflexivity|]. simpl. auto.
Qed.

Lemma ipa_undecodable_icon_still_succeeds_witness :
  exists info,
    NewAppParser (Sample.ipaWorld "" Sample.cgbiTruncated) "/tmp/example.ipa"
      = Returns (Some info, None) /\
    Icon info = None /\ Size info = 8192%Z /\ ipaFields (Sample.plistOf "") info.
Proof.
  exact (ipa_undecodable_icon_still_succeeds
           (Sample.ipaWorld "" Sample.cgbiTruncated) "/tmp/example.ipa"
           (stat := {| fi_Name := "example.ipa"; fi_Size := 8192 |})
           (pf := Sample.plistEntry) (p := Sample.plistOf "")
           (icf := Sample.iconEntry Sample.cgbiTruncated)
           (w := [Byte.x89; Byte.x50])
           (decodeErr := errors_New "png: invalid format: not a PNG file")
           eq_refl eq_refl eq_refl eq_refl eq_refl eq_refl eq_refl eq_refl
           eq_refl eq_refl eq_refl eq_refl).
Defined.

(* ================================================================= *)
(** * Further properties of the pipeline *)

(** ** Shapes of what the steps return *)

Lemma parseApkFile_shape (W : World) (xf : option zipFile) :
  (exists info, parseApkFile W xf = (Some info, None)) \/
  (exists err, parseApkFile W xf = (None, Some err)).
Proof.
  unfold parseApkFile. destruct xf as [f|]; [|right; eauto].
  destruct (parseAndroidManifest W f); [left | right]; eauto.
Qed.

Lemma parseIpaFile_shape (W : World) (pf : option zipFile) :
  (exists info, parseIpaFile W pf = (Some info, None)) \/
  (exists err, parseIpaFile W pf = (None, Some err)).
Proof.
  unfold parseIpaFile. destruct pf as [f|]; [|right; eauto].
  destruct (zf_Open f) as [rc|e]; [|right; eauto].
  destruct (ioutil_ReadAll rc) as [buf|e]; [|right; eauto].
  destruct (plist_Decode W buf); [left | right]; eauto.
Qed.

(** X8: the icon/label step of the Android path returns a nil error
    exactly when it returns an icon, and with an error it returns no
    icon and the empty label. *)
Theorem parseApkIconAndLabel_outcomes (W : World) (name : string) :
  (snd (parseApkIconAndLabel W name) = None <->
   fst (fst (parseApkIconAndLabel W name)) <> None) /\
  (snd (parseApkIconAndLabel W name) <> None ->
   fst (parseApkIconAndLabel W name) = (None, "")).
Proof.
  unfold parseApkIconAndLabel. destruct (apk_OpenFile W name) as [pkg|e].
  - destruct (apk_Icon pkg _) as [[i|] ie].
    + destruct (apk_Label pkg None) as [label le]. simpl.
      repeat split; congruence.
    + simpl. repeat split; congruence.
  - simpl. repeat split; congruence.
Qed.

Lemma parseApkIconAndLabel_outcomes_witness :
  fst (parseApkIconAndLabel Sample.apkNoIconWorld "/tmp/example.apk") = (None, "").
Proof.
  apply (proj2 (parseApkIconAndLabel_outcomes Sample.apkNoIconWorld "/tmp/example.apk")).
  discriminate.
Defined.

(** X1: the call never returns a nil record together with a nil error:
    on every input and with every collaborator, a nil error comes with a
    record. *)
Theorem never_nil_record_with_nil_error (W : World) (name : string) :
  NewAppParser W name <> Returns (None, None).
Proof.
  unfold NewAppParser.
  destruct (os_Open W name) as [file|e]; [|discriminate].
  destruct (file_Stat file) as [stat|e]; [|discriminate].
  destruct (zip_NewReader W file (fi_Size stat)) as [reader|e]; [|discriminate].
  cbv zeta. destruct (String.eqb (Ext (fi_Name stat)) androidExt).
  - destruct (parseApkFile W (xmlFile (scan reader))) as [[i|] e];
      destruct (parseApkIconAndLabel W name) as [[icon label] e']; discriminate.
  - destruct (String.eqb (Ext (fi_Name stat)) iosExt); [|discriminate].
    destruct (parseIpaFile_shape W (plistFile (scan reader)))
      as [(info & ->) | (err & ->)]; [|discriminate].
    destruct (parseIpaIcon W (iosIconFile (scan reader))) as [icon [e|]]; discriminate.
Qed.

(** X2: the call panics exactly when the file opens, stats and reads as
    a ZIP archive, its name has the extension .apk and the manifest step
    fails (the manifest entry is missing, or cannot be opened, read or
    decoded); the panic is then the nil-pointer write. *)
Theorem panics_exactly_on_apk_manifest_failure (W : World) (name reason : string) :
  NewAppParser W name = Panics reason <->
  reason = nilDereference /\
  exists file stat reader err,
    os_Open W name = Ok file /\
    file_Stat file = Ok stat /\
    zip_NewReader W file (fi_Size stat) = Ok reader /\
    Ext (fi_Name stat) = androidExt /\
    parseApkFile W (xmlFile (scan reader)) = (None, Some err).
Proof.
  unfold NewAppParser. split.
  - destruct (os_Open W name) as [file|e]; [|discriminate].
    destruct (file_Stat file) as [stat|e] eqn:Hstat; [|discriminate].
    destruct (zip_NewReader W file (fi_Size stat)) as [reader|e] eqn:Hzip; [|discriminate].
    cbv zeta. destruct (String.eqb_spec (Ext (fi_Name stat)) androidExt) as [Hext|Hext].
    + destruct (parseApkFile_shape W (xmlFile (scan reader)))
        as [(info & Hp) | (err & Hp)]; rewrite Hp;
        destruct (parseApkIconAndLabel W name) as [[icon label] e']; [discriminate|].
      intros [= <-]. split; [reflexivity|]. exists file, stat, reader, err. auto.
    + destruct (String.eqb (Ext (fi_Name stat)) iosExt); [|discriminate].
      destruct (parseIpaFile_shape W (plistFile (scan reader)))
        as [(info & ->) | (err & ->)]; [|discriminate].
      destruct (parseIpaIcon W (iosIconFile (scan reader))) as [icon [e|]]; discriminate.
  - intros (-> & file & stat & reader & err & Hopen & Hstat & Hzip & Hext & Hp).
    rewrite Hopen, Hstat, Hzip. cbv zeta. rewrite Hext, Hp. simpl.
    now destruct (parseApkIconAndLabel W name) as [[icon label] e'].
Qed.

(** X3: on the iOS path the call is all or nothing: for a file that
    opens, stats and reads as a ZIP archive and whose name has the
    extension .ipa, it returns either a record with a nil error or an
    error with no record; it never panics and never returns both. *)
Theorem ipa_all_or_nothing (W : World) (name : string)
    (file : osFile) (stat : FileInfo) (reader : list zipFile) :
  os_Open W name = Ok file ->
  file_Stat file = Ok stat ->
  zip_NewReader W file (fi_Size stat) = Ok reader ->
  Ext (fi_Name stat) = iosExt ->
  (exists info, NewAppParser W name = Returns (Some info, None)) \/
  (exists err, NewAppParser W name = Returns (None, Some err)).
Proof.
  intros Hopen Hstat Hzip Hext.
  unfold NewAppParser. rewrite Hopen, Hstat, Hzip. cbv zeta. rewrite Hext. simpl.
  destruct (parseIpaFile_shape W (plistFile (scan reader)))
    as [(info & ->) | (err & ->)]; [|right; eauto].
  destruct (parseIpaIcon W (iosIconFile (scan reader))) as [icon [e|]];
    [right | left]; eauto.
Qed.

Lemma ipa_all_or_nothing_witness :
  (exists info,
      NewAppParser (Sample.ipaWorld "" Sample.cgbiGood) "/tmp/example.ipa"
      = Returns (Some info, None)) \/
  (exists err,
      NewAppParser (Sample.ipaWorld "" Sample.cgbiGood) "/tmp/example.ipa"
      = Returns (None, Some err)).
Proof.
  exact (ipa_all_or_nothing (Sample.ipaWorld "" Sample.cgbiGood) "/tmp/example.ipa"
           (stat := {| fi_Name := "example.ipa"; fi_Size := 8192 |})
           eq_refl eq_refl eq_refl eq_refl).
Defined.

(** ** The iOS path, step by step *)

Lemma slot_scan_none (k : entryKind) (files : list zipFile) :
  (forall f, In f files -> classify (zf_Name f) <> Some k) ->
  slot k (scan files) = None.
Proof.
  intros H. rewrite slot_scan.
  destruct (find (is_kind k) (rev files)) as [f|] eqn:E; [|reflexivity].
  apply find_some in E as [I K]. apply in_rev in I.
  apply is_kind_spec in K. now apply H in I.
Qed.

(** X4: on an .ipa none of whose entry names contains a piece of the
    shape Payload/segment/Info.plist, the call fails with the
    plist-not-found error and no record, whatever the icon entry and the
    other collaborators would give. *)
Theorem ipa_without_plist_fails (W : World) (name : string)
    (file : osFile) (stat : FileInfo) (reader : list zipFile) :
  os_Open W name = Ok file ->
  file_Stat file = Ok stat ->
  zip_NewReader W file (fi_Size stat) = Ok reader ->
  Ext (fi_Name stat) = iosExt ->
  (forall f, In f reader -> ~ containsInfoPlistPath (zf_Name f)) ->
  NewAppParser W name = Returns (None, Some (errors_New "info.plist is not found")).
Proof.
  intros Hopen Hstat Hzip Hext Hnone.
  assert (Hslot : plistFile (scan reader) = None).
  { apply (slot_scan_none (k := InfoPlistEntry)). intros f I C.
    apply (Hnone f I). now apply MatchString_reInfoPlist, classify_plist. }
  unfold NewAppParser. rewrite Hopen, Hstat, Hzip. cbv zeta.
  now rewrite Hext, Hslot.
Qed.

Lemma ipa_without_plist_fails_witness :
  NewAppParser Sample.ipaNoPlistWorld "/tmp/example.ipa"
  = Returns (None, Some (errors_New "info.plist is not found")).
Proof.
  refine (ipa_without_plist_fails Sample.ipaNoPlistWorld "/tmp/example.ipa"
            (stat := {| fi_Name := "example.ipa"; fi_Size := 8000 |})
            eq_refl eq_refl eq_refl eq_refl _).
  intros f [<- | [<- | []]] C; apply MatchString_reInfoPlist in C; discriminate C.
Defined.

(** X5: on an .ipa whose plist entry decodes and none of whose entry
    names contains AppIcon60x60, the call fails with the icon-not-found
    error, wrapped as a failure of the icon step, and returns no record:
    a missing icon is fatal on the iOS path. *)
Theorem ipa_without_icon_fails (W : World) (name : string)
    (file : osFile) (stat : FileInfo) (reader : list zipFile)
    (pf : zipFile) (prc : ReadCloser) (p : iosPlist) :
  os_Open W name = Ok file ->
  file_Stat file = Ok stat ->
  zip_NewReader W file (fi_Size stat) = Ok reader ->
  Ext (fi_Name stat) = iosExt ->
  plistFile (scan reader) = Some pf ->
  zf_Open pf = Ok prc ->
  rc_err prc = None ->
  plist_Decode W (rc_data prc) = Ok p ->
  (forall f, In f reader -> Contains (zf_Name f) "AppIcon60x60" = false) ->
  NewAppParser W name =
  Returns (None, Some (fmt_Errorf "failed parsing ipa icon file: %v"
                                  [VError (errors_New "Icon is not found")])).
Proof.
  intros Hopen Hstat Hzip Hext Hplist Hprc Hread Hdec Hnone.
  destruct (parseIpaFile_decoded W pf Hprc Hread Hdec) as (info0 & Hparse & _).
  assert (Hslot : iosIconFile (scan reader) = None).
  { apply (slot_scan_none (k := IosIconEntry)). intros f I C.
    apply classify_icon in C as [C _]. rewrite (Hnone f I) in C. discriminate. }
  unfold NewAppParser. rewrite Hopen, Hstat, Hzip. cbv zeta.
  now rewrite Hext, Hplist, Hparse, Hslot.
Qed.

Lemma ipa_without_icon_fails_witness :
  NewAppParser Sample.ipaNoIconWorld "/tmp/example.ipa" =
  Returns (None, Some (fmt_Errorf "failed parsing ipa icon file: %v"
                                  [VError (errors_New "Icon is not found")])).
Proof.
  refine (ipa_without_icon_fails Sample.ipaNoIconWorld "/tmp/example.ipa"
            (stat := {| fi_Name := "example.ipa"; fi_Size := 8000 |})
            (pf := Sample.plistEntry) (p := Sample.plistOf "")
            eq_refl eq_refl eq_refl eq_refl eq_refl eq_refl eq_refl eq_refl _).
  intros f [<- | [<- | []]]; reflexivity.
Defined.

(** X6: on an .ipa whose plist entry decodes and whose icon entry
    reverts without error into bytes that decode as a PNG, the call
    returns, with a nil error, the record whose name follows the
    display-name rule, whose identifier, version and build are those of
    the plist, whose icon is the decoded image and whose size is the
    byte length of the file. *)
Theorem ipa_well_formed_record (W : World) (name : string)
    (file : osFile) (stat : FileInfo) (reader : list zipFile)
    (pf : zipFile) (prc : ReadCloser) (p : iosPlist)
    (icf : zipFile) (irc : ReadCloser) (w : bytes) (image : option Image) :
  os_Open W name = Ok file ->
  file_Stat file = Ok stat ->
  zip_NewReader W file (fi_Size stat) = Ok reader ->
  Ext (fi_Name stat) = iosExt ->
  plistFile (scan reader) = Some pf ->
  zf_Open pf = Ok prc ->
  rc_err prc = None ->
  plist_Decode W (rc_data prc) = Ok p ->
  iosIconFile (scan reader) = Some icf ->
  zf_Open icf = Ok irc ->
  iospng_PngRevertOptimization W irc = (w, None) ->
  png_Decode W w = (image, None) ->
  NewAppParser W name =
  Returns (Some {| Name := if String.eqb (CFBundleDisplayName p) ""
                           then CFBundleName p else CFBundleDisplayName p;
                   BundleId := CFBundleIdentifier p;
                   Version := CFBundleShortVersion p;
                   Build := CFBundleVersion p;
                   Icon := image; Size := fi_Size stat |}, None).
Proof.
  intros Hopen Hstat Hzip Hext Hplist Hprc Hread Hdec Hicon Hirc Hrev Hpng.
  unfold NewAppParser. rewrite Hopen, Hstat, Hzip. cbv zeta.
  rewrite Hext, Hplist, Hicon. simpl.
  unfold parseIpaFile, ioutil_ReadAll. rewrite Hprc, Hread, Hdec.
  unfold parseIpaIcon. rewrite Hirc, Hrev, Hpng. reflexivity.
Qed.

Lemma ipa_well_formed_record_witness :
  NewAppParser (Sample.ipaWorld "Example Pro" Sample.cgbiGood) "/tmp/example.ipa" =
  Returns (Some {| Name := "Example Pro"; BundleId := "com.example.ios";
                   Version := "1.2.3"; Build := "42";
                   Icon := Some Sample.icon; Size := 8192 |}, None).
Proof.
  exact (ipa_well_formed_record
           (Sample.ipaWorld "Example Pro" Sample.cgbiGood) "/tmp/example.ipa"
           (stat := {| fi_Name := "example.ipa"; fi_Size := 8192 |})
           (pf := Sample.plistEntry) (p := Sample.plistOf "Example Pro")
           (icf := Sample.iconEntry Sample.cgbiGood) (w := Sample.pngMagic)
           (image := Some Sample.icon)
           eq_refl eq_refl eq_refl eq_refl eq_refl eq_refl eq_refl eq_refl
           eq_refl eq_refl eq_refl eq_refl).
Defined.

(** X7: every error of the reversal step other than the image-data
    condition is fatal: the icon step returns it wrapped, nothing is
    decoded, and on an .ipa whose plist decodes the call returns that
    error, wrapped once more, and no record. *)
Theorem ipa_revert_failure_is_fatal (W : World) (name : string)
    (file : osFile) (stat : FileInfo) (reader : list zipFile)
    (pf : zipFile) (prc : ReadCloser) (p : iosPlist)
    (icf : zipFile) (irc : ReadCloser) (w : bytes) (revertErr : error) :
  os_Open W name = Ok file ->
  file_Stat file = Ok stat ->
  zip_NewReader W file (fi_Size stat) = Ok reader ->
  Ext (fi_Name stat) = iosExt ->
  plistFile (scan reader) = Some pf ->
  zf_Open pf = Ok prc ->
  rc_err prc = None ->
  plist_Decode W (rc_data prc) = Ok p ->
  iosIconFile (scan reader) = Some icf ->
  zf_Open icf = Ok irc ->
  iospng_PngRevertOptimization W irc = (w, Some revertErr) ->
  revertErr <> ErrImageData ->
  parseIpaIcon W (Some icf) =
    (None, Some (fmt_Errorf "failed png revert optimization: %v" [VError revertErr])) /\
  NewAppParser W name =
    Returns (None, Some (fmt_Errorf "failed parsing ipa icon file: %v"
               [VError (fmt_Errorf "failed png revert optimization: %v"
                                   [VError revertErr])])).
Proof.
  intros Hopen Hstat Hzip Hext Hplist Hprc Hread Hdec Hicon Hirc Hrev Hneq.
  destruct (parseIpaFile_decoded W pf Hprc Hread Hdec) as (info0 & Hparse & _).
  assert (Hstep : parseIpaIcon W (Some icf) =
    (None, Some (fmt_Errorf "failed png revert optimization: %v" [VError revertErr]))).
  { unfold parseIpaIcon. rewrite Hirc, Hrev.
    destruct revertErr; [contradiction | reflexivity | reflexivity]. }
  split; [exact Hstep|].
  unfold NewAppParser. rewrite Hopen, Hstat, Hzip. cbv zeta.
  now rewrite Hext, Hplist, Hparse, Hicon, Hstep.
Qed.

Lemma ipa_revert_failure_is_fatal_witness :
  NewAppParser (Sample.ipaWorld "" [Byte.x00]) "/tmp/example.ipa" =
  Returns (None, Some (fmt_Errorf "failed parsing ipa icon file: %v"
             [VError (fmt_Errorf "failed png revert optimization: %v"
                                 [VError (errors_New "Not a Png")])])).
Proof.
  refine (proj2 (ipa_revert_failure_is_fatal
                   (Sample.ipaWorld "" [Byte.x00]) "/tmp/example.ipa"
                   (stat := {| fi_Name := "example.ipa"; fi_Size := 8192 |})
                   (pf := Sample.plistEntry) (p := Sample.plistOf "")
                   (icf := Sample.iconEntry [Byte.x00]) (w := [])
                   (revertErr := errors_New "Not a Png")
                   eq_refl eq_refl eq_refl eq_refl eq_refl eq_refl eq_refl eq_refl
                   eq_refl eq_refl eq_refl _)).
  discriminate.
Defined.

(** X9: a record is returned together with an error only on the Android
    path, and only when the icon/label step failed: the error is that
    step's error, and the record has the empty name and no icon. *)
Theorem record_with_error_only_from_apk_icon_step (W : World) (name : string)
    (info : AppInfo) (err : error) :
  NewAppParser W name = Returns (Some info, Some err) ->
  (exists file stat,
      os_Open W name = Ok file /\ file_Stat file = Ok stat /\
      Ext (fi_Name stat) = androidExt) /\
  parseApkIconAndLabel W name = (None, "", Some err) /\
  Name info = "" /\ Icon info = None.
Proof.
  unfold NewAppParser.
  destruct (os_Open W name) as [file|e]; [|discriminate].
  destruct (file_Stat file) as [stat|e] eqn:Hstat; [|discriminate].
  destruct (zip_NewReader W file (fi_Size stat)) as [reader|e]; [|discriminate].
  cbv zeta. destruct (String.eqb_spec (Ext (fi_Name stat)) androidExt) as [Hext|Hext].
  - destruct (parseApkFile W (xmlFile (scan reader))) as [[i|] e];
      destruct (parseApkIconAndLabel W name) as [[icon label] e'] eqn:E;
      [|discriminate].
    intros [= <- ->].
    apply parseApkIconAndLabel_error in E as [-> ->]. simpl. eauto 10.
  - destruct (String.eqb (Ext (fi_Name stat)) iosExt); [|discriminate].
    destruct (parseIpaFile W (plistFile (scan reader))) as [i [e|]]; [discriminate|].
    destruct (parseIpaIcon W (iosIconFile (scan reader))) as [icon [e|]]; [discriminate|].
    destruct i; discriminate.
Qed.

Lemma record_with_error_only_from_apk_icon_step_witness :
  parseApkIconAndLabel Sample.apkNoIconWorld "/tmp/example.apk"
  = (None, "", Some (errors_New "Icon is not found")).
Proof.
  exact (proj1 (proj2 (record_with_error_only_from_apk_icon_step
           Sample.apkNoIconWorld "/tmp/example.apk"
           (info := {| Name := ""; BundleId := "com.example.app"; Version := "1.2.3";
                       Build := "7"; Icon := None; Size := 4096 |})
           (err := errors_New "Icon is not found") eq_refl))).
Defined.

(** ** Scanning an archive in two parts *)

Lemma find_app_first (A : Type) (p : A -> bool) (l1 l2 : list A) :
  find p (l1 ++ l2)%list =
  match find p l1 with Some x => Some x | None => find p l2 end.
Proof.
  induction l1 as [|a l1 IH]; simpl; [reflexivity|].
  now destruct (p a).
Qed.

(** X10: scanning composes over concatenation: for each pattern, the
    scan of an archive split in two parts gives the entry found in the
    later part when that part has one, and the entry found in the
    earlier part otherwise. *)
Theorem scan_app (earlier later : list zipFile) (k : entryKind) :
  slot k (scan (earlier ++ later)) =
  match slot k (scan later) with
  | Some f => Some f
  | None => slot k (scan earlier)
  end.
Proof.
  rewrite !slot_scan, rev_app_distr. apply find_app_first.
Qed.

(** ** Which collaborators a platform path consults *)

Lemma parseAndroidManifest_ext (W1 W2 : World) (f : zipFile) :
  (forall b, androidbinary_NewXMLFile W2 b = androidbinary_NewXMLFile W1 b) ->
  (forall x, xml_Decode W2 x = xml_Decode W1 x) ->
  parseAndroidManifest W2 f = parseAndroidManifest W1 f.
Proof.
  intros Hbin Hxml. unfold parseAndroidManifest.
  destruct (zf_Open f) as [rc|e]; [|reflexivity].
  destruct (ioutil_ReadAll rc) as [buf|e]; [|reflexivity].
  rewrite Hbin. destruct (androidbinary_NewXMLFile W1 buf) as [x|e]; [|reflexivity].
  now rewrite Hxml.
Qed.

Lemma parseIpaFile_ext (W1 W2 : World) (pf : option zipFile) :
  (forall b, plist_Decode W2 b = plist_Decode W1 b) ->
  parseIpaFile W2 pf = parseIpaFile W1 pf.
Proof.
  intros Hplist. unfold parseIpaFile. destruct pf as [f|]; [|reflexivity].
  destruct (zf_Open f) as [rc|e]; [|reflexivity].
  destruct (ioutil_ReadAll rc) as [buf|e]; [|reflexivity].
  now rewrite Hplist.
Qed.

Lemma parseIpaIcon_ext (W1 W2 : World) (icf : option zipFile) :
  (forall rc, iospng_PngRevertOptimization W2 rc = iospng_PngRevertOptimization W1 rc) ->
  (forall b, png_Decode W2 b = png_Decode W1 b) ->
  parseIpaIcon W2 icf = parseIpaIcon W1 icf.
Proof.
  intros Hrev Hpng. unfold parseIpaIcon. destruct icf as [f|]; [|reflexivity].
  destruct (zf_Open f) as [rc|e]; [|reflexivity].
  rewrite Hrev. destruct (iospng_PngRevertOptimization W1 rc) as [w err].
  now rewrite Hpng.
Qed.

(** X11: for a file whose name has the extension .apk, the outcome of
    the call does not depend on the plist decoder, the icon reversal or
    the PNG decoder: two sets of collaborators that agree on the file,
    its archive, the manifest decoders and the resource-table accessor
    give the same outcome. *)
Theorem apk_path_ignores_ios_decoders (W1 W2 : World) (name : string)
    (file : osFile) (stat : FileInfo) :
  os_Open W1 name = Ok file ->
  file_Stat file = Ok stat ->
  Ext (fi_Name stat) = androidExt ->
  os_Open W2 name = Ok file ->
  zip_NewReader W2 file (fi_Size stat) = zip_NewReader W1 file (fi_Size stat) ->
  (forall b, androidbinary_NewXMLFile W2 b = androidbinary_NewXMLFile W1 b) ->
  (forall x, xml_Decode W2 x = xml_Decode W1 x) ->
  apk_OpenFile W2 name = apk_OpenFile W1 name ->
  NewAppParser W2 name = NewAppParser W1 name.
Proof.
  intros Hopen1 Hstat Hext Hopen2 Hzip Hbin Hxml Hapk.
  unfold NewAppParser. rewrite Hopen1, Hopen2, Hstat, Hzip.
  destruct (zip_NewReader W1 file (fi_Size stat)) as [reader|e]; [|reflexivity].
  cbv zeta. rewrite Hext. simpl.
  unfold parseApkFile, parseApkIconAndLabel. rewrite Hapk.
  destruct (xmlFile (scan reader)) as [f|]; [|reflexivity].
  now rewrite (parseAndroidManifest_ext W1 W2 f Hbin Hxml).
Qed.

Lemma apk_path_ignores_ios_decoders_witness :
  NewAppParser (Sample.withoutIosDecoders Sample.apkWorld) "/tmp/example.apk"
  = NewAppParser Sample.apkWorld "/tmp/example.apk".
Proof.
  refine (apk_path_ignores_ios_decoders
            Sample.apkWorld (Sample.withoutIosDecoders Sample.apkWorld) "/tmp/example.apk"
            (stat := {| fi_Name := "example.apk"; fi_Size := 4096 |})
            eq_refl eq_refl eq_refl eq_refl eq_refl _ _ eq_refl);
    intros; reflexivity.
Defined.

(** X12: the resource-table accessor and the manifest decoders are
    consulted for .apk files only: for a file whose name has another
    extension, two sets of collaborators that agree on the file, its
    archive, the plist decoder, the icon reversal and the PNG decoder
    give the same outcome. *)
Theorem other_paths_ignore_android_collaborators (W1 W2 : World) (name : string)
    (file : osFile) (stat : FileInfo) :
  os_Open W1 name = Ok file ->
  file_Stat file = Ok stat ->
  Ext (fi_Name stat) <> androidExt ->
  os_Open W2 name = Ok file ->
  zip_NewReader W2 file (fi_Size stat) = zip_NewReader W1 file (fi_Size stat) ->
  (forall b, plist_Decode W2 b = plist_Decode W1 b) ->
  (forall rc, iospng_PngRevertOptimization W2 rc = iospng_PngRevertOptimization W1 rc) ->
  (forall b, png_Decode W2 b = png_Decode W1 b) ->
  NewAppParser W2 name = NewAppParser W1 name.
Proof.
  intros Hopen1 Hstat Hext Hopen2 Hzip Hplist Hrev Hpng.
  unfold NewAppParser. rewrite Hopen1, Hopen2, Hstat, Hzip.
  destruct (zip_NewReader W1 file (fi_Size stat)) as [reader|e]; [|reflexivity].
  cbv zeta. apply String.eqb_neq in Hext. rewrite Hext.
  destruct (String.eqb (Ext (fi_Name stat)) iosExt); [|reflexivity].
  rewrite (parseIpaFile_ext W1 W2 _ Hplist).
  now rewrite (parseIpaIcon_ext W1 W2 _ Hrev Hpng).
Qed.

Lemma other_paths_ignore_android_collaborators_witness :
  NewAppParser (Sample.withoutAndroidDecoders (Sample.ipaWorld "" Sample.cgbiGood))
               "/tmp/example.ipa"
  = NewAppParser (Sample.ipaWorld "" Sample.cgbiGood) "/tmp/example.ipa".
Proof.
  refine (other_paths_ignore_android_collaborators
            (Sample.ipaWorld "" Sample.cgbiGood)
            (Sample.withoutAndroidDecoders (Sample.ipaWorld "" Sample.cgbiGood))
            "/tmp/example.ipa"
            (stat := {| fi_Name := "example.ipa"; fi_Size := 8192 |})
            eq_refl eq_refl _ eq_refl eq_refl _ _ _);
    [discriminate | intros; reflexivity ..].
Defined.

(** ** The extension the dispatcher reads *)

Module ExtFacts.
Import GoString GoStringFacts.

Lemma get_append_length (base s : string) (i : nat) :
  String.get (String.length base + i) (base ++ s) = String.get i s.
Proof. induction base; simpl; auto. Qed.

Lemma substring_append_length (base s : string) (i n : nat) :
  substring (String.length base + i) n (base ++ s) = substring i n s.
Proof. induction base; simpl; auto. Qed.

Lemma substring_whole (s : string) : substring 0 (String.length s) s = s.
Proof. induction s; simpl; congruence. Qed.

Lemma length_append (a b : string) :
  String.length (a ++ b) = String.length a + String.length b.
Proof. induction a; simpl; congruence. Qed.

Lemma get_some_iff_lt (s : string) (i : nat) :
  (exists c, String.get i s = Some c) <-> i < String.length s.
Proof.
  revert i. induction s as [|a s IH]; intros i; simpl.
  - split; [intros [c H]; discriminate | lia].
  - destruct i as [|i].
    + split; [lia | eauto].
    + rewrite IH. lia.
Qed.

Lemma get_free (c : ascii) (s : string) :
  Contains s (String c "") = false ->
  forall i d, String.get i s = Some d -> Ascii.eqb d c = false.
Proof.
  induction s as [|a s IH]; intros F i d G.
  - discriminate G.
  - rewrite Contains_byte_cons in F. apply orb_false_iff in F as [Fa Fs].
    destruct i as [|i]; simpl in G.
    + now injection G as <-.
    + exact (IH Fs i d G).
Qed.

Lemma substring_split (path : string) :
  forall j, j <= String.length path ->
  path = substring 0 j path ++ substring j (String.length path - j) path.
Proof.
  induction path as [|c s IH]; intros j Hj.
  - destruct j; [reflexivity | simpl in Hj; lia].
  - destruct j as [|j].
    + simpl. now rewrite substring_whole.
    + simpl in Hj. simpl. f_equal. apply IH. lia.
Qed.

(** The loop ends at the final dot when only plain bytes follow it. *)
Lemma ExtLoop_tail (base e : string) (i : nat) :
  Contains e "." = false ->
  Contains e "/" = false ->
  i <= String.length e ->
  ExtLoop (base ++ String "." e) (String.length base + S i) = String "." e.
Proof.
  intros Fdot Fslash. induction i as [|i IH]; intros Hi.
  - rewrite Nat.add_1_r. cbn [ExtLoop].
    pose proof (get_append_length base (String "." e) 0) as G.
    rewrite Nat.add_0_r in G. rewrite G. simpl String.get. simpl Ascii.eqb. cbv iota.
    rewrite length_append. simpl String.length.
    replace (String.length base + S (String.length e) - String.length base)
      with (S (String.length e)) by lia.
    pose proof (substring_append_length base (String "." e) 0 (S (String.length e))) as S0.
    rewrite Nat.add_0_r in S0. rewrite S0. simpl. now rewrite substring_whole.
  - rewrite Nat.add_succ_r. cbn [ExtLoop].
    rewrite get_append_length. simpl String.get.
    destruct (proj2 (get_some_iff_lt e i) Hi) as [d G]. rewrite G.
    rewrite (@get_free "/" e Fslash i d G), (@get_free "." e Fdot i d G).
    apply IH. lia.
Qed.

(** The loop returns the empty string or a suffix of the path. *)
Lemma ExtLoop_result (path : string) (i : nat) :
  ExtLoop path i = "" \/
  exists j, j < String.length path /\
            ExtLoop path i = substring j (String.length path - j) path.
Proof.
  induction i as [|i IH]; simpl; [now left|].
  destruct (String.get i path) as [c|] eqn:G; [|now left].
  destruct (Ascii.eqb c "/"); [now left|].
  destruct (Ascii.eqb c "."); [|exact IH].
  right. exists i. split; [|reflexivity].
  apply get_some_iff_lt. eauto.
Qed.

Lemma Ext_final_suffix (e path : string) :
  Contains e "." = false ->
  Contains e "/" = false ->
  Ext path = String "." e <-> exists base, path = base ++ String "." e.
Proof.
  intros Fdot Fslash. unfold Ext. split.
  - intros H. destruct (ExtLoop_result path (String.length path)) as [E | (j & Hj & E)].
    + rewrite E in H. discriminate.
    + exists (substring 0 j path). rewrite <- H, E. apply substring_split. lia.
  - intros [base ->]. rewrite length_append. simpl String.length.
    now apply ExtLoop_tail.
Qed.

End ExtFacts.

(** X13: the platform is chosen by the end of the file name alone and
    case-sensitively: the extension read by the dispatcher is .apk
    exactly when the name ends in .apk, and .ipa exactly when the name
    ends in .ipa. *)
Theorem dispatch_by_name_suffix (fileName : string) :
  (Ext fileName = androidExt <-> exists base, fileName = base ++ ".apk") /\
  (Ext fileName = iosExt <-> exists base, fileName = base ++ ".ipa").
Proof.
  split; apply ExtFacts.Ext_final_suffix; reflexivity.
Qed.
